(** * Cognito-Health: the upload and anomaly endpoints of [app.py]

    A shallow embedding of [DataUpload.post] and [Anomalies.get] and of the
    marshmallow schema [PatientDataSchema] they rely on.

    - The handlers are written in a small state-and-exception monad over a
      [World]: the Cosmos container, the files of the upload folder, the
      log, and the trace of the [container.upsert_item] calls.  What was
      written before an exception stays written.
    - A row (a Python dict) is a finite map from column name to [value]; a
      finite float is the rational it denotes.
    - The schema is the one of app.py, run by marshmallow's rules: a
      required field refuses an absent key, [String] accepts exactly the
      [str] values, [Integer] is not strict and applies [int], [DateTime]
      parses ISO 8601, validators run on the deserialized value, and a key
      that is no declared field is an error.
    - What the third-party libraries compute is a parameter, gathered in
      the record [Library]: the statements hold for every such library.
      Spark is taken to hand back the rows it was given, unless it raises.
    - The container is an interface, [Container]; the statements about the
      stored state are about [keyed_container], a map that keeps under each
      key the last document written there.
    - The handlers are the bodies below [@jwt_required()]: requests that
      the decorator lets through. *)

From Stdlib Require Import ZArith QArith Ascii String List.
From stdpp Require Import base option list gmap strings pretty.

Local Open Scope Z_scope.
Local Open Scope string_scope.
Local Open Scope list_scope.

(** ** Python values, rows and exceptions *)

(** The values a cell of a pandas frame or a JSON document can hold.
    A finite float is the rational it denotes; [VNaN] is pandas' marker
    for an empty cell. *)
Inductive value :=
| VStr (s : string)
| VInt (z : Z)
| VFloat (q : Q)
| VInf (negative : bool)
| VNaN
| VBool (b : bool)
| VNone.

(** A row is a Python dict from column name to value, as produced by
    [df.to_dict('records')]. *)
Abbreviation Row := (gmap string value).

(** The error keys of marshmallow, under the names the specification uses:
    "required", "null", "invalid", "too_large", the message of
    [validate.Range] and "unknown". *)
Inductive error_kind :=
| MissingField
| NullField
| InvalidFormat
| TooLarge
| OutOfRange
| UnknownField.

(** [ValidationError.messages] of a load with [many=True]: for each failing
    row index, the errors of each failing field. *)
Definition RowErrors := list (string * list error_kind).
Definition Messages := list (nat * RowErrors).

Inductive exn :=
| ValidationError (messages : Messages)
| Exception (text : string).

Inductive result (A : Type) :=
| Ok (a : A)
| Raise (e : exn).
Arguments Ok {A} a.
Arguments Raise {A} e.

(** The column types of a pandas frame that matter here. *)
Inductive dtype :=
| int64
| float64
| bool_
| object_.

#[export] Instance dtype_eq_dec : EqDecision dtype.
Proof. solve_decision. Defined.

(** ** Third-party collaborators *)

Record Library := {
  (** marshmallow's ISO 8601 parser: the instant, or [None] on ValueError *)
  from_iso_datetime : string -> option Z;
  (** Python's [int] on a [str]: [None] on ValueError *)
  int_of_str : string -> option Z;
  (** [str] of the messages dict of a [ValidationError] *)
  repr_messages : Messages -> string;
  (** [uuid.uuid4()], drawn from the entropy counter of the world *)
  uuid4 : nat -> string;
  (** [pd.read_csv] on the content of a file *)
  read_csv : string -> result (list Row);
  (** whether [spark.createDataFrame] raises on a frame *)
  createDataFrame_raises : list Row -> option exn;
  (** the dtype pandas infers for a column from its cells *)
  infer_dtype : list value -> dtype;
  (** the cell as pandas stores it in a column of that dtype *)
  astype : dtype -> value -> value;
  (** [datetime.isoformat] *)
  isoformat : Z -> string;
  (** the score the Keras model gives one feature vector: a float of
      [0,1], or [None] for NaN *)
  score : list value -> option Q;
  (** whether [anomaly_model.predict] raises on a feature matrix *)
  predict_raises : list (list value) -> option exn
}.

(** [str(e)] *)
Definition str (lib : Library) (e : exn) : string :=
  match e with
  | ValidationError m => repr_messages lib m
  | Exception text => text
  end.

(** ** marshmallow fields (app.py, lines 47-51) *)

Inductive validator :=
| Range (min max : Z).

Inductive field :=
| String_ (required : bool)
| Integer_ (required : bool) (validate : list validator)
| DateTime_ (required : bool).

Definition required (f : field) : bool :=
  match f with
  | String_ r => r
  | Integer_ r _ => r
  | DateTime_ r => r
  end.

Definition validate (f : field) : list validator :=
  match f with
  | Integer_ _ v => v
  | _ => []
  end.

(** class PatientDataSchema(Schema) *)
Definition PatientDataSchema : list (string * field) :=
  [ ("patient_id", String_ true);
    ("age", Integer_ false [Range 0 120]);
    ("disease", String_ true);
    ("timestamp", DateTime_ true) ].

(** The deserialized value of a field. *)
Inductive loaded :=
| LStr (s : string)
| LInt (z : Z)
| LDateTime (t : Z).

(** [int(x)] on a float truncates toward zero. *)
Definition int_of_float (q : Q) : Z := Z.quot (Qnum q) (Z.pos (Qden q)).

(** [Field._deserialize] for the three field classes.  [String] accepts
    exactly the [str] values; [Integer] (not strict) refuses booleans and
    otherwise calls [int]; [DateTime] refuses falsy and non-string values
    and otherwise calls the ISO parser. *)
Definition _deserialize (lib : Library) (f : field) (v : value) : error_kind + loaded :=
  match f with
  | String_ _ =>
      match v with
      | VStr s => inr (LStr s)
      | _ => inl InvalidFormat
      end
  | Integer_ _ _ =>
      match v with
      | VBool _ => inl InvalidFormat
      | VInt z => inr (LInt z)
      | VFloat q => inr (LInt (int_of_float q))
      | VNaN => inl InvalidFormat
      | VInf _ => inl TooLarge
      | VStr s =>
          match int_of_str lib s with
          | Some z => inr (LInt z)
          | None => inl InvalidFormat
          end
      | VNone => inl InvalidFormat
      end
  | DateTime_ _ =>
      match v with
      | VStr s =>
          if String.eqb s "" then inl InvalidFormat
          else match from_iso_datetime lib s with
               | Some t => inr (LDateTime t)
               | None => inl InvalidFormat
               end
      | _ => inl InvalidFormat
      end
  end.

(** One validator on a deserialized value. *)
Definition run_validator (v : validator) (d : loaded) : list error_kind :=
  match v, d with
  | Range lo hi, LInt z => if ((lo <=? z) && (z <=? hi))%Z then [] else [OutOfRange]
  | Range _ _, _ => []
  end.

(** [Field._validate]: the errors of all validators. *)
Definition _validate (f : field) (d : loaded) : list error_kind :=
  flat_map (fun v => run_validator v d) (validate f).

(** [Field.deserialize]: [raw] is [None] when the key is absent from the
    row.  The result is the errors, or the value ([None] for an absent
    optional field, which is left out of the output). *)
Definition Field_deserialize (lib : Library) (f : field) (raw : option value)
  : list error_kind + option loaded :=
  match raw with
  | None => if required f then inl [MissingField] else inr None
  | Some VNone => inl [NullField]
  | Some v =>
      match _deserialize lib f v with
      | inl e => inl [e]
      | inr d =>
          match _validate f d with
          | [] => inr (Some d)
          | errs => inl errs
          end
      end
  end.

(** The declared fields of a schema, in order. *)
Fixpoint load_fields (lib : Library) (schema : list (string * field)) (row : Row)
  : RowErrors * gmap string loaded :=
  match schema with
  | [] => ([], ∅)
  | (name, f) :: rest =>
      let '(errs, valid) := load_fields lib rest row in
      match Field_deserialize lib f (row !! name) with
      | inl e => ((name, e) :: errs, valid)
      | inr (Some d) => (errs, <[name := d]> valid)
      | inr None => (errs, valid)
      end
  end.

(** [unknown = RAISE], marshmallow's default: every key of the row that is
    not a declared field is an error. *)
Definition unknown_fields (schema : list (string * field)) (row : Row) : RowErrors :=
  map (fun kv : string * value => (kv.1, [UnknownField]))
      (filter (fun kv : string * value => kv.1 ∉ map fst schema) (map_to_list row)).

(** [Schema._deserialize] on one row. *)
Definition load_row (lib : Library) (schema : list (string * field)) (row : Row)
  : RowErrors + gmap string loaded :=
  let '(errs, valid) := load_fields lib schema row in
  match errs ++ unknown_fields schema row with
  | [] => inr valid
  | e => inl e
  end.

(** [Schema._deserialize] with [many=True]: every row is loaded, the errors
    are stored under the row's index. *)
Fixpoint load_rows (lib : Library) (schema : list (string * field)) (i : nat) (rows : list Row)
  : Messages * list (gmap string loaded) :=
  match rows with
  | [] => ([], [])
  | row :: rest =>
      let '(errs, valid) := load_rows lib schema (S i) rest in
      match load_row lib schema row with
      | inl e => ((i, e) :: errs, valid)
      | inr d => (errs, d :: valid)
      end
  end.

(** [schema.load(rows)] for [schema = Schema(many=True)]: raises
    [ValidationError] as soon as one row has an error. *)
Definition Schema_load (lib : Library) (schema : list (string * field)) (rows : list Row)
  : result (list (gmap string loaded)) :=
  match load_rows lib schema 0 rows with
  | ([], valid) => Ok valid
  | (messages, _) => Raise (ValidationError messages)
  end.

(** A row the schema accepts. *)
Definition valid_row (lib : Library) (r : Row) : Prop :=
  exists d, load_row lib PatientDataSchema r = inr d.

(** [int(v)] as the [Integer] field computes it, when it succeeds. *)
Definition int_coercion (lib : Library) (v : value) : option Z :=
  match _deserialize lib (Integer_ false []) v with
  | inr (LInt z) => Some z
  | _ => None
  end.

(** The cell is the empty string. *)
Definition is_empty_string (v : value) : bool :=
  match v with
  | VStr s => String.eqb s ""
  | _ => false
  end.

(** A frame as [pd.read_csv] gives it with its default NA handling: an
    empty cell is read as NaN, so no cell holds the empty string. *)
Definition read_by_pandas (df : list Row) : Prop :=
  Forall (fun r : Row => map_Forall (fun _ v => is_empty_string v = false) r) df.

(** ** Requests, responses and the world *)

(** A werkzeug [FileStorage]: the name the client gave and the content. *)
Record FileStorage := {
  filename : string;
  stream : string
}.

(** [request.files], a multi-dict: a key may occur more than once, and
    [request.files[k]] is its first value. *)
Record Request := {
  files : list (string * FileStorage)
}.

Fixpoint multidict_get (k : string) (d : list (string * FileStorage)) : option FileStorage :=
  match d with
  | [] => None
  | (k', v) :: rest => if String.eqb k k' then Some v else multidict_get k rest
  end.

Inductive body :=
| ErrorBody (error : string)
| UploadBody (message : string) (records : nat)
| AnomaliesBody (anomalies : list Row).

Definition Response := (body * Z)%type.

Definition status (r : Response) : Z := r.2.

(** The Cosmos container, as far as the handlers use it.  Both calls may
    raise. *)
Class Container (Store : Type) := {
  upsert_item : Row -> Store -> result Store;
  query_items : string -> list (string * string) -> Store -> result (list Row)
}.

(** What a request can read and change: the container, the files of the
    process, the log, the rows handed to [container.upsert_item] so far
    (in call order, whether or not the call raised), the entropy behind
    [uuid4] and the clock. *)
Record World (Store : Type) := {
  store : Store;
  fs : gmap string string;
  sink_calls : list Row;
  logs : list (string * string);
  entropy : nat;
  now : Z
}.
Arguments store {Store} w.
Arguments fs {Store} w.
Arguments sink_calls {Store} w.
Arguments logs {Store} w.
Arguments entropy {Store} w.
Arguments now {Store} w.

(** config.py *)
Definition UPLOAD_FOLDER : string := "uploads".

(** [os.path.join] of a folder and a relative name *)
Definition path_join (a b : string) : string := a ++ "/" ++ b.

(** [s.endswith(suffix)] *)
Definition endswith (s suffix : string) : bool :=
  let n := String.length s in
  let m := String.length suffix in
  (m <=? n)%nat && String.eqb (substring (n - m) m s) suffix.

(** ** The monad of the handlers: state that survives an exception *)

Section Handlers.
Context {Store : Type} `{!Container Store}.
Variable lib : Library.

Definition M (A : Type) : Type := World Store -> World Store * result A.

Definition ret {A} (a : A) : M A := fun w => (w, Ok a).

Definition bind {A B} (m : M A) (k : A -> M B) : M B := fun w =>
  match m w with
  | (w', Ok a) => k a w'
  | (w', Raise e) => (w', Raise e)
  end.

(** [try: m  except Exception as e: h e] *)
Definition try_except {A} (m : M A) (h : exn -> M A) : M A := fun w =>
  match m w with
  | (w', Ok a) => (w', Ok a)
  | (w', Raise e) => h e w'
  end.

Notation "x <- m ;; k" := (bind m (fun x => k))
  (at level 100, m at next level, right associativity).
Notation "m ;;; k" := (bind m (fun _ => k))
  (at level 100, right associativity).

(** [for x in l: body x] *)
Fixpoint for_each {A} (l : list A) (body : A -> M unit) : M unit :=
  match l with
  | [] => ret tt
  | x :: rest => body x ;;; for_each rest body
  end.

(** *** The effects *)

(** [str(uuid.uuid4())] *)
Definition new_uuid : M string := fun w =>
  ({| store := store w; fs := fs w; sink_calls := sink_calls w; logs := logs w;
      entropy := S (entropy w); now := now w |},
   Ok (uuid4 lib (entropy w))).

(** [file.save(filepath)] *)
Definition file_save (file : FileStorage) (filepath : string) : M unit := fun w =>
  ({| store := store w; fs := <[filepath := stream file]> (fs w);
      sink_calls := sink_calls w; logs := logs w; entropy := entropy w; now := now w |},
   Ok tt).

(** [pd.read_csv(filepath)] followed by [to_dict('records')]: the frame is
    kept as its list of rows. *)
Definition pd_read_csv (filepath : string) : M (list Row) := fun w =>
  match fs w !! filepath with
  | None => (w, Raise (Exception "No such file or directory"))
  | Some content => (w, read_csv lib content)
  end.

(** [os.remove(filepath)] *)
Definition os_remove (filepath : string) : M unit := fun w =>
  match fs w !! filepath with
  | None => (w, Raise (Exception "No such file or directory"))
  | Some _ =>
      ({| store := store w; fs := delete filepath (fs w);
          sink_calls := sink_calls w; logs := logs w; entropy := entropy w; now := now w |},
       Ok tt)
  end.

(** [logger.info] and [logger.error] *)
Definition logger (level message : string) : M unit := fun w =>
  ({| store := store w; fs := fs w; sink_calls := sink_calls w;
      logs := logs w ++ [(level, message)]; entropy := entropy w; now := now w |},
   Ok tt).

(** [spark.createDataFrame(df)]: the same rows, unless Spark raises. *)
Definition spark_createDataFrame (df : list Row) : M (list Row) := fun w =>
  match createDataFrame_raises lib df with
  | Some e => (w, Raise e)
  | None => (w, Ok df)
  end.

Definition is_null (v : value) : bool :=
  match v with
  | VNaN | VNone => true
  | _ => false
  end.

(** [spark_df.dropna()]: the rows without a null or NaN cell. *)
Definition dropna (df : list Row) : list Row :=
  filter (fun r : Row => map_Forall (fun _ v => is_null v = false) r) df.

(** [container.upsert_item(row)] *)
Definition container_upsert_item (row : Row) : M unit := fun w =>
  match upsert_item row (store w) with
  | Ok s =>
      ({| store := s; fs := fs w; sink_calls := sink_calls w ++ [row];
          logs := logs w; entropy := entropy w; now := now w |},
       Ok tt)
  | Raise e =>
      ({| store := store w; fs := fs w; sink_calls := sink_calls w ++ [row];
          logs := logs w; entropy := entropy w; now := now w |},
       Raise e)
  end.

(** [schema.load(rows)] inside the handler *)
Definition schema_load (rows : list Row) : M (list (gmap string loaded)) := fun w =>
  (w, Schema_load lib PatientDataSchema rows).

(** *** DataUpload.post (app.py, lines 106-145) *)

(** The body of the outer [try]. *)
Definition post_try (request : Request) : M Response :=
  match multidict_get "file" (files request) with
  | None => ret (ErrorBody "No file provided", 400)
  | Some file =>
      if negb (endswith (filename file) ".csv")
      then ret (ErrorBody "Only CSV files are supported", 400)
      else
        uuid <- new_uuid ;;
        let filepath := path_join UPLOAD_FOLDER (uuid ++ ".csv") in
        file_save file filepath ;;;
        df <- pd_read_csv filepath ;;
        validated <- try_except
                       (validated_data <- schema_load df ;; ret (inr validated_data))
                       (fun e => ret (inl e)) ;;
        match validated with
        | inl e => ret (ErrorBody ("Data validation failed: " ++ str lib e), 400)
        | inr validated_data =>
            spark_df <- spark_createDataFrame df ;;
            let spark_df := dropna spark_df in
            for_each spark_df container_upsert_item ;;;
            os_remove filepath ;;;
            logger "INFO" ("Successfully processed file: " ++ filename file) ;;;
            ret (UploadBody "Data uploaded successfully" (length df), 200)
        end
  end.

Definition DataUpload_post (request : Request) : M Response :=
  try_except (post_try request)
    (fun e =>
       logger "ERROR" ("Error uploading data: " ++ str lib e) ;;;
       ret (ErrorBody (str lib e), 500)).

(** *** Anomalies.get (app.py, lines 165-187) *)

(** [pd.DataFrame(items)]: one column per key that occurs, one row per
    item, a missing cell filled with NaN. *)
Record Frame := {
  columns : list (string * dtype);
  records : list Row
}.

Definition cell (c : string) (r : Row) : value := default VNaN (r !! c).

Definition all_columns (items : list Row) : list string :=
  elements (⋃ (dom <$> items) : gset string).

Definition pd_DataFrame (items : list Row) : Frame :=
  let cols :=
    map (fun c => (c, infer_dtype lib (map (cell c) items))) (all_columns items) in
  {| columns := cols;
     records :=
       map (fun r : Row =>
              list_to_map
                (map (fun ct : string * dtype => (ct.1, astype lib ct.2 (cell ct.1 r))) cols))
           items |}.

(** [df.empty]: no row or no column *)
Definition df_empty (df : Frame) : bool :=
  match records df, columns df with
  | [], _ => true
  | _, [] => true
  | _, _ => false
  end.

(** The cells of a row in the columns of the given dtypes. *)
Definition feature_vector (include : list dtype) (df : Frame) (r : Row) : list value :=
  map (fun ct : string * dtype => cell ct.1 r)
      (filter (fun ct : string * dtype => ct.2 ∈ include) (columns df)).

(** [df.select_dtypes(include=...).values]: one vector per row *)
Definition select_dtypes_values (include : list dtype) (df : Frame) : list (list value) :=
  map (feature_vector include df) (records df).

(** [anomaly_model.predict(features)]: one score per row *)
Definition model_predict (features : list (list value)) : M (list (option Q)) := fun w =>
  match predict_raises lib features with
  | Some e => (w, Raise e)
  | None => (w, Ok (map (score lib) features))
  end.

(** [predictions > 0.5], elementwise; a comparison with NaN is false *)
Definition above_threshold (p : option Q) : bool :=
  match p with
  | Some q => negb (Qle_bool q (1 # 2))
  | None => false
  end.

(** [df[mask]] for a boolean mask with one entry per row *)
Fixpoint boolean_index (rows : list Row) (mask : list bool) : list Row :=
  match rows, mask with
  | r :: rows', b :: mask' =>
      if b then r :: boolean_index rows' mask' else boolean_index rows' mask'
  | _, _ => []
  end.

Definition utcnow : M Z := fun w => (w, Ok (now w)).

(** [list(container.query_items(query, parameters, ...))] *)
Definition container_query_items (query : string) (parameters : list (string * string))
  : M (list Row) := fun w =>
  (w, query_items query parameters (store w)).

Definition get_try : M Response :=
  let query := "SELECT * FROM c WHERE c.timestamp > @recent ORDER BY c.timestamp DESC" in
  t <- utcnow ;;
  items <- container_query_items query [("@recent", isoformat lib (t - 7 * 86400))] ;;
  let df := pd_DataFrame items in
  anomalies <-
    (if negb (df_empty df)
     then
       let features := select_dtypes_values [float64; int64] df in
       predictions <- model_predict features ;;
       ret (boolean_index (records df) (map above_threshold predictions))
     else ret []) ;;
  ret (AnomaliesBody anomalies, 200).

Definition Anomalies_get : M Response :=
  try_except get_try
    (fun e =>
       logger "ERROR" ("Error detecting anomalies: " ++ str lib e) ;;;
       ret (ErrorBody (str lib e), 500)).

End Handlers.

(** ** A container with exact read-back

    A map from key to the last document written under it; a document the
    key function refuses is rejected by the store.  Cosmos keys a document
    by its [id]; the specification has it keyed by [patient_id]. *)

Definition keyed_upsert (key : Row -> result string) (row : Row) (s : gmap string Row)
  : result (gmap string Row) :=
  match key row with
  | Ok k => Ok (<[k := row]> s)
  | Raise e => Raise e
  end.

Definition keyed_container (key : Row -> result string)
    (query : string -> list (string * string) -> gmap string Row -> result (list Row))
  : Container (gmap string Row) :=
  {| upsert_item := keyed_upsert key; query_items := query |}.

Definition key_by (field : string) (row : Row) : result string :=
  match row !! field with
  | Some (VStr k) => Ok k
  | _ => Raise (Exception "BadRequest")
  end.

(** The writes of the upload loop on such a store: the keyed documents
    written before the first refusal, the rows handed over and the
    exception. *)
Fixpoint keyed_writes (key : Row -> result string) (rows : list Row)
  : list (string * Row) * list Row * option exn :=
  match rows with
  | [] => ([], [], None)
  | r :: rest =>
      match key r with
      | Ok k =>
          let '(ws, calls, e) := keyed_writes key rest in
          ((k, r) :: ws, r :: calls, e)
      | Raise e => ([], [r], Some e)
      end
  end.

Fixpoint insert_all (ws : list (string * Row)) (s : gmap string Row) : gmap string Row :=
  match ws with
  | [] => s
  | (k, r) :: rest => insert_all rest (<[k := r]> s)
  end.

(** The last document written under a key. *)
Fixpoint last_write (k : string) (ws : list (string * Row)) : option Row :=
  match ws with
  | [] => None
  | (k', r) :: rest =>
      match last_write k rest with
      | Some x => Some x
      | None => if decide (k' = k) then Some r else None
      end
  end.

(** ** The Batch Normalizer of the specification (section 4.2)

    Not part of app.py: written after the specification's words, to be
    compared with what the handler stores. *)

Definition timestamp_of (lib : Library) (r : Row) : option Z :=
  match r !! "timestamp" with
  | Some (VStr s) => from_iso_datetime lib s
  | _ => None
  end.

Definition has_patient_id (pid : string) (r : Row) : bool :=
  match r !! "patient_id" with
  | Some (VStr p) => String.eqb p pid
  | _ => false
  end.

(** "The one with the later timestamp wins; ties broken by
    last-occurrence-in-batch." *)
Definition spec_later (lib : Library) (best : option Row) (r : Row) : option Row :=
  match best with
  | None => Some r
  | Some b =>
      match timestamp_of lib b, timestamp_of lib r with
      | Some tb, Some tr => if (tb <=? tr)%Z then Some r else Some b
      | _, _ => Some r
      end
  end.

Definition spec_winner (lib : Library) (pid : string) (batch : list Row) : option Row :=
  fold_left (fun best r => if has_patient_id pid r then spec_later lib best r else best)
            batch None.

(** What the handler does instead: the last row of the batch with that
    patient_id. *)
Definition last_with (pid : string) (batch : list Row) : option Row :=
  last (List.filter (has_patient_id pid) batch).

(** ** A concrete library, for running the handlers on examples *)

Module Demo.

#[local] Open Scope Z_scope.

Definition digit_value (c : ascii) : option Z :=
  let n := nat_of_ascii c in
  if ((48 <=? n) && (n <=? 57))%nat then Some (Z.of_nat (n - 48)) else None.

Fixpoint decimal_value (acc : Z) (s : string) : option Z :=
  match s with
  | EmptyString => Some acc
  | String c rest =>
      match digit_value c with
      | Some d => decimal_value (10 * acc + d) rest
      | None => None
      end
  end.

Definition parse_decimal (s : string) : option Z :=
  match s with
  | EmptyString => None
  | _ => decimal_value 0 s
  end.

(** [int] on a plain decimal literal with an optional sign *)
Definition parse_int (s : string) : option Z :=
  match s with
  | String "-" rest => Z.opp <$> parse_decimal rest
  | _ => parse_decimal s
  end.

Definition is_leap (y : Z) : bool :=
  ((y mod 4 =? 0) && negb (y mod 100 =? 0)) || (y mod 400 =? 0).

Definition days_in_month (y m : Z) : Z :=
  if m =? 2 then (if is_leap y then 29 else 28)
  else if (m =? 4) || (m =? 6) || (m =? 9) || (m =? 11) then 30
  else 31.

(** days since 1970-01-01 of a date of the proleptic Gregorian calendar *)
Definition days_from_civil (y m d : Z) : Z :=
  let y' := if m <=? 2 then y - 1 else y in
  let era := y' / 400 in
  let yoe := y' - era * 400 in
  let doy := (153 * (if 2 <? m then m - 3 else m + 9) + 2) / 5 + d - 1 in
  let doe := yoe * 365 + yoe / 4 - yoe / 100 + doy in
  era * 146097 + doe - 719468.

(** The ISO 8601 instants of the shape [YYYY-MM-DDTHH:MM:SSZ], as seconds
    since the epoch. *)
Definition iso_instant (s : string) : option Z :=
  if negb (String.length s =? 20)%nat then None
  else if negb (String.eqb (substring 4 1 s) "-" && String.eqb (substring 7 1 s) "-"
                && String.eqb (substring 10 1 s) "T" && String.eqb (substring 13 1 s) ":"
                && String.eqb (substring 16 1 s) ":" && String.eqb (substring 19 1 s) "Z")
  then None
  else
    y ← parse_decimal (substring 0 4 s);
    m ← parse_decimal (substring 5 2 s);
    d ← parse_decimal (substring 8 2 s);
    h ← parse_decimal (substring 11 2 s);
    mi ← parse_decimal (substring 14 2 s);
    sec ← parse_decimal (substring 17 2 s);
    if (1 <=? y) && (1 <=? m) && (m <=? 12) && (1 <=? d) && (d <=? days_in_month y m)
       && (h <? 24) && (mi <? 60) && (sec <? 60)
    then Some (days_from_civil y m d * 86400 + h * 3600 + mi * 60 + sec)
    else None.

(** The files the examples upload, with the rows [pd.read_csv] gives for
    them; any other content is one pandas cannot parse. *)
Definition fixture_read_csv (fixtures : list (string * list Row)) (content : string)
  : result (list Row) :=
  match list_find (fun kv : string * list Row => kv.1 = content) fixtures with
  | Some (_, (_, df)) => Ok df
  | None => Raise (Exception "No columns to parse from file")
  end.

Definition is_numeric (v : value) : bool :=
  match v with
  | VInt _ | VFloat _ | VInf _ | VNaN => true
  | _ => false
  end.

Definition is_int (v : value) : bool :=
  match v with
  | VInt _ => true
  | _ => false
  end.

Definition column_dtype (cells : list value) : dtype :=
  if forallb is_int cells then int64
  else if forallb is_numeric cells then float64
  else object_.

Definition column_astype (t : dtype) (v : value) : value :=
  match t, v with
  | float64, VInt z => VFloat (inject_Z z)
  | _, _ => v
  end.

(** A classifier for the examples: the first feature, as a fraction of 100. *)
Definition first_feature_score (x : list value) : option Q :=
  match x with
  | VInt z :: _ => Some (z # 100)
  | VFloat q :: _ => Some (Qdiv q (inject_Z 100))
  | VNaN :: _ => None
  | _ => Some 0%Q
  end.

(** The text of an error, as marshmallow words it. *)
Definition error_message (name : string) (e : error_kind) : string :=
  match e with
  | MissingField => "Missing data for required field."
  | NullField => "Field may not be null."
  | InvalidFormat =>
      match list_find (fun nf : string * field => nf.1 = name) PatientDataSchema with
      | Some (_, (_, Integer_ _ _)) => "Not a valid integer."
      | Some (_, (_, DateTime_ _)) => "Not a valid datetime."
      | _ => "Not a valid string."
      end
  | TooLarge => "Number too large."
  | OutOfRange => "Must be greater than or equal to 0 and less than or equal to 120."
  | UnknownField => "Unknown field."
  end.

Definition quoted (s : string) : string := ("'" ++ s ++ "'")%string.

(** [repr] of the dict of messages, for keys and texts without quotes *)
Definition repr_row_errors (errs : RowErrors) : string :=
  ("{" ++ String.concat ", "
     (map (fun fe : string * list error_kind =>
             quoted fe.1 ++ ": [" ++
             String.concat ", " (map (fun e => quoted (error_message fe.1 e)) fe.2) ++ "]")
          errs) ++ "}")%string.

Definition repr_dict (m : Messages) : string :=
  ("{" ++ String.concat ", "
     (map (fun ie : nat * RowErrors => pretty ie.1 ++ ": " ++ repr_row_errors ie.2) m)
   ++ "}")%string.

Definition library (fixtures : list (string * list Row)) : Library :=
  {| from_iso_datetime := iso_instant;
     int_of_str := parse_int;
     repr_messages := repr_dict;
     uuid4 := fun n => ("00000000-0000-4000-8000-" ++ pretty n)%string;
     read_csv := fixture_read_csv fixtures;
     createDataFrame_raises := fun df =>
       match df with
       | [] => Some (Exception "can not infer schema from empty dataset")
       | _ => None
       end;
     infer_dtype := column_dtype;
     astype := column_astype;
     isoformat := fun t => pretty t;
     score := first_feature_score;
     predict_raises := fun _ => None |}.

(** The store of the specification: keyed by [patient_id]; a query returns
    every document. *)
Definition all_documents (query : string) (parameters : list (string * string))
    (s : gmap string Row) : result (list Row) :=
  Ok (map snd (map_to_list s)).

Definition container : Container (gmap string Row) :=
  keyed_container (key_by "patient_id") all_documents.

Definition world (s : gmap string Row) : World (gmap string Row) :=
  {| store := s; fs := ∅; sink_calls := []; logs := []; entropy := 0; now := 1704240000 |}.

Definition upload (name content : string) : Request :=
  {| files := [("file", {| filename := name; stream := content |})] |}.

Definition patient (pid : string) (age : value) (disease ts : string) : Row :=
  <["patient_id" := VStr pid]> (<["age" := age]> (<["disease" := VStr disease]>
    (<["timestamp" := VStr ts]> ∅))).

(** *** The uploaded files of the examples *)

Definition p1_jan1 : Row := patient "p1" (VInt 45) "flu" "2024-01-01T00:00:00Z".
Definition p1_jan2 : Row := patient "p1" (VInt 46) "flu" "2024-01-02T00:00:00Z".

(** the scenario of the specification: two rows for p1 *)
Definition scenario_csv : string :=
"patient_id,age,disease,timestamp
p1,45,flu,2024-01-01T00:00:00Z
p1,46,flu,2024-01-02T00:00:00Z
".

(** the same two rows, the later timestamp first *)
Definition reversed_csv : string :=
"patient_id,age,disease,timestamp
p1,46,flu,2024-01-02T00:00:00Z
p1,45,flu,2024-01-01T00:00:00Z
".

(** three rows, the second with an age out of range *)
Definition p2_age200 : Row := patient "p2" (VInt 200) "flu" "2024-01-01T00:00:00Z".
Definition p3_valid : Row := patient "p3" (VInt 30) "cold" "2024-01-03T00:00:00Z".

Definition partial_csv : string :=
"patient_id,age,disease,timestamp
p1,45,flu,2024-01-01T00:00:00Z
p2,200,flu,2024-01-01T00:00:00Z
p3,30,cold,2024-01-03T00:00:00Z
".

(** an age that is not an integer: pandas reads the column as floats *)
Definition p4_age45_5 : Row := patient "p4" (VFloat (91 # 2)) "flu" "2024-01-01T00:00:00Z".

Definition fractional_csv : string :=
"patient_id,age,disease,timestamp
p4,45.5,flu,2024-01-01T00:00:00Z
".

(** a file without the patient_id column *)
Definition anonymous : Row :=
  <["age" := VInt 45]> (<["disease" := VStr "flu"]>
    (<["timestamp" := VStr "2024-01-01T00:00:00Z"]> ∅)).

Definition anonymous_csv : string :=
"age,disease,timestamp
45,flu,2024-01-01T00:00:00Z
".

Definition fixtures : list (string * list Row) :=
  [ (scenario_csv, [p1_jan1; p1_jan2]);
    (reversed_csv, [p1_jan2; p1_jan1]);
    (partial_csv, [p1_jan1; p2_age200; p3_valid]);
    (fractional_csv, [p4_age45_5]);
    (anonymous_csv, [anonymous]) ].

Definition lib : Library := library fixtures.

(** An upload of a file into the empty store. *)
Definition run_upload (name content : string) : World (gmap string Row) * result Response :=
  @DataUpload_post _ container lib (upload name content) (world ∅).

(** A store with two documents, for the anomalies endpoint. *)
Definition p5_age99 : Row := patient "p5" (VInt 99) "flu" "2024-01-02T00:00:00Z".

Definition two_patients : gmap string Row :=
  <["p1" := p1_jan1]> (<["p5" := p5_age99]> ∅).

Definition field_of (doc : option Row) (k : string) : option value :=
  doc ≫= fun r : Row => r !! k.

End Demo.

(** ** A file with an empty patient_id cell *)

Module DemoEmptyCell.

(** pandas reads the empty cell of the second row as NaN *)
Definition empty_id_row : Row :=
  <["patient_id" := VNaN]> (<["age" := VInt 52]> (<["disease" := VStr "flu"]>
    (<["timestamp" := VStr "2024-01-02T00:00:00Z"]> ∅))).

Definition empty_id_csv : string :=
"patient_id,age,disease,timestamp
p1,45,flu,2024-01-01T00:00:00Z
,52,flu,2024-01-02T00:00:00Z
".

Definition lib : Library :=
  Demo.library [(empty_id_csv, [Demo.p1_jan1; empty_id_row])].

Definition run_upload (name content : string) : World (gmap string Row) * result Response :=
  @DataUpload_post _ Demo.container lib (Demo.upload name content) (Demo.world ∅).

End DemoEmptyCell.

(** ** The handler's run, spelled out

    The same handler with the monad unfolded: which branch is taken and
    what the world is afterwards.  [DataUpload_post_outcome] below proves
    it equal to [DataUpload_post]. *)

Section Outcome.
Context {Store : Type} `{!Container Store}.
Variable lib : Library.

(** The loop over the rows: the store afterwards, the rows handed to
    [upsert_item] (the last one is the row that raised, if any) and the
    exception. *)
Fixpoint upsert_all (rows : list Row) (s : Store) : Store * list Row * option exn :=
  match rows with
  | [] => (s, [], None)
  | r :: rest =>
      match upsert_item r s with
      | Ok s' =>
          let '(s'', calls, e) := upsert_all rest s' in
          (s'', r :: calls, e)
      | Raise e => (s, [r], Some e)
      end
  end.

Definition upload_path (w : World Store) : string :=
  path_join UPLOAD_FOLDER (uuid4 lib (entropy w) ++ ".csv").

(** after [uuid4] and [file.save] *)
Definition saved (file : FileStorage) (w : World Store) : World Store :=
  {| store := store w; fs := <[upload_path w := stream file]> (fs w);
     sink_calls := sink_calls w; logs := logs w; entropy := S (entropy w); now := now w |}.

(** the outer [except] clause *)
Definition failed (w : World Store) (e : exn) : World Store * result Response :=
  ({| store := store w; fs := fs w; sink_calls := sink_calls w;
      logs := logs w ++ [("ERROR", ("Error uploading data: " ++ str lib e)%string)];
      entropy := entropy w; now := now w |},
   Ok (ErrorBody (str lib e), 500)).

Definition post_outcome (request : Request) (w : World Store) : World Store * result Response :=
  match multidict_get "file" (files request) with
  | None => (w, Ok (ErrorBody "No file provided", 400))
  | Some file =>
      if endswith (filename file) ".csv" then
        let w1 := saved file w in
        match read_csv lib (stream file) with
        | Raise e => failed w1 e
        | Ok df =>
            match Schema_load lib PatientDataSchema df with
            | Raise e => (w1, Ok (ErrorBody ("Data validation failed: " ++ str lib e), 400))
            | Ok _ =>
                match createDataFrame_raises lib df with
                | Some e => failed w1 e
                | None =>
                    let '(s, calls, e) := upsert_all (dropna df) (store w) in
                    match e with
                    | Some e =>
                        failed {| store := s; fs := fs w1; sink_calls := sink_calls w ++ calls;
                                  logs := logs w; entropy := S (entropy w); now := now w |} e
                    | None =>
                        ({| store := s; fs := delete (upload_path w) (fs w1);
                            sink_calls := sink_calls w ++ calls;
                            logs := logs w ++ [("INFO", ("Successfully processed file: "
                                                         ++ filename file)%string)];
                            entropy := S (entropy w); now := now w |},
                         Ok (UploadBody "Data uploaded successfully" (length df), 200))
                    end
                end
            end
        end
      else (w, Ok (ErrorBody "Only CSV files are supported", 400))
  end.

End Outcome.

(** ** The other handlers of app.py *)

(** *** Login.post (app.py, lines 88-97) *)





(** *** Dashboard.get (app.py, lines 151-159) *)



(** ** config.py *)

Module cfg.

(** [os.getenv(key, default)] on the environment as [load_dotenv] left
    it; [os.getenv(key)] is the plain lookup. *)
Definition getenv (env : gmap string string) (key fallback : string) : string :=
  match env !! key with
  | Some v => v
  | None => fallback
  end.

(** [str.lower], on the ASCII letters *)
Definition ascii_lower (c : ascii) : ascii :=
  let n := nat_of_ascii c in
  if ((65 <=? n) && (n <=? 90))%nat then ascii_of_nat (n + 32) else c.

Fixpoint lower (s : string) : string :=
  match s with
  | EmptyString => EmptyString
  | String c rest => String (ascii_lower c) (lower rest)
  end.

(** [s.split(sep)] for a separator of one character: never empty, with an
    empty piece between two adjacent separators and at either end *)
Fixpoint split (sep : ascii) (s : string) : list string :=
  match s with
  | EmptyString => [EmptyString]
  | String c rest =>
      if Ascii.eqb c sep then EmptyString :: split sep rest
      else
        match split sep rest with
        | piece :: pieces => String c piece :: pieces
        | [] => [String c EmptyString]
        end
  end.

(** The attributes of a configuration class; [TESTING] is [None] on a
    class that does not define it.  Durations are in seconds. *)
Record Settings := {
  SECRET_KEY : string;
  DEBUG : bool;
  JWT_SECRET_KEY : option string;
  JWT_ACCESS_TOKEN_EXPIRES : Z;
  JWT_REFRESH_TOKEN_EXPIRES : Z;
  AZURE_COSMOS_ENDPOINT : option string;
  AZURE_COSMOS_KEY : option string;
  AZURE_KEY_VAULT_URI : option string;
  MAX_CONTENT_LENGTH : Z;
  ALLOWED_EXTENSIONS : list string;
  UPLOAD_FOLDER : string;
  CORS_ORIGINS : list string;
  LOG_LEVEL : string;
  TESTING : option bool
}.

(** class Config *)
Definition Config (env : gmap string string) : Settings :=
  {| SECRET_KEY := getenv env "FLASK_SECRET_KEY" "dev-secret-key";
     DEBUG := String.eqb (lower (getenv env "FLASK_DEBUG" "False")) "true";
     JWT_SECRET_KEY := env !! "JWT_SECRET_KEY";
     JWT_ACCESS_TOKEN_EXPIRES := 1 * 3600;
     JWT_REFRESH_TOKEN_EXPIRES := 30 * 86400;
     AZURE_COSMOS_ENDPOINT := env !! "AZURE_COSMOS_ENDPOINT";
     AZURE_COSMOS_KEY := env !! "AZURE_COSMOS_KEY";
     AZURE_KEY_VAULT_URI := env !! "AZURE_KEY_VAULT_URI";
     MAX_CONTENT_LENGTH := 16 * 1024 * 1024;
     ALLOWED_EXTENSIONS := ["csv"];
     UPLOAD_FOLDER := "uploads";
     CORS_ORIGINS := split "," (getenv env "CORS_ORIGINS" "*");
     LOG_LEVEL := getenv env "LOG_LEVEL" "INFO";
     TESTING := None |}.






(** [Config.init_app]: the paths that exist afterwards.  [os.makedirs] of
    a relative name of one component creates that directory. *)
Definition init_app (env : gmap string string) (paths : gset string) : gset string :=
  if decide (UPLOAD_FOLDER (Config env) ∈ paths) then paths
  else {[UPLOAD_FOLDER (Config env)]} ∪ paths.

End cfg.

(** ** More examples *)

Module DemoExtras.

(** a file with a column the schema does not declare *)
Definition p1_with_id : Row := <["id" := VInt 1]> Demo.p1_jan1.

Definition id_column_csv : string :=
"id,patient_id,age,disease,timestamp
1,p1,45,flu,2024-01-01T00:00:00Z
".

(** three valid rows, the second for a patient the store below refuses *)
Definition three_rows_csv : string :=
"patient_id,age,disease,timestamp
p1,45,flu,2024-01-01T00:00:00Z
p3,30,cold,2024-01-03T00:00:00Z
p1,46,flu,2024-01-02T00:00:00Z
".

Definition lib : Library :=
  Demo.library
    [ (id_column_csv, [p1_with_id]);
      (three_rows_csv, [Demo.p1_jan1; Demo.p3_valid; Demo.p1_jan2]) ].






End DemoExtras.

(** * Properties *)

Section Upload.
Context {Store : Type} `{!Container Store}.
Variable lib : Library.

Lemma for_each_upsert (rows : list Row) (w : World Store) :
  for_each rows container_upsert_item w =
  let '(s, calls, e) := upsert_all rows (store w) in
  ({| store := s; fs := fs w; sink_calls := sink_calls w ++ calls; logs := logs w;
      entropy := entropy w; now := now w |},
   match e with
   | None => Ok tt
   | Some e => Raise e
   end).
Proof.
  revert w. induction rows as [|r rest IH]; intros w; simpl.
  - unfold ret. rewrite app_nil_r. by destruct w.
  - unfold bind, container_upsert_item.
    destruct (upsert_item r (store w)) as [s'|e]; [|done].
    rewrite IH. simpl.
    destruct (upsert_all rest s') as [[s'' calls] e].
    by rewrite <- app_assoc.
Qed.

(** The monadic handler takes exactly the branches of [post_outcome]. *)
Lemma DataUpload_post_outcome (request : Request) (w : World Store) :
  DataUpload_post lib request w = post_outcome lib request w.
Proof.
  unfold DataUpload_post, post_outcome, try_except, post_try.
  destruct (multidict_get "file" (files request)) as [file|]; [|done].
  destruct (endswith (filename file) ".csv"); [|done].
  cbn [negb].
  unfold bind at 1. unfold new_uuid.
  unfold bind at 1. unfold file_save.
  unfold bind at 1. unfold pd_read_csv. cbn [fs entropy].
  fold (upload_path lib w).
  rewrite lookup_insert_eq.
  destruct (read_csv lib (stream file)) as [df|e]; [|done].
  unfold bind at 1. unfold try_except, bind at 1, schema_load.
  destruct (Schema_load lib PatientDataSchema df) as [vd|e]; [|done].
  unfold ret at 1.
  unfold bind at 1. unfold spark_createDataFrame.
  destruct (createDataFrame_raises lib df) as [e|]; [done|].
  unfold bind at 1. rewrite for_each_upsert. cbn [store fs sink_calls logs entropy now].
  destruct (upsert_all (dropna df) (store w)) as [[s calls] [e|]]; [done|].
  unfold bind at 1. unfold os_remove. cbn [fs].
  rewrite lookup_insert_eq.
  reflexivity.
Qed.

End Upload.

(** ** The schema *)

Section Validation.
Variable lib : Library.

Lemma Field_deserialize_not_null (f : field) (v : value) (x : option loaded) :
  Field_deserialize lib f (Some v) = inr x -> is_null v = false.
Proof. destruct v, f; simpl; intros; done. Qed.

Lemma load_fields_accepts (schema : list (string * field)) (r : Row) valid :
  load_fields lib schema r = ([], valid) ->
  forall name f, In (name, f) schema ->
  exists x, Field_deserialize lib f (r !! name) = inr x.
Proof.
  revert valid. induction schema as [|[n g] rest IH]; intros valid Hl name f Hin.
  - destruct Hin.
  - simpl in Hl. destruct (load_fields lib rest r) as [errs v] eqn:E.
    destruct (Field_deserialize lib g (r !! n)) as [e|[d|]] eqn:F;
      try discriminate; injection Hl as -> _;
      (destruct Hin as [[= -> ->]|Hin]; [eauto | by eapply IH]).
Qed.

Lemma load_fields_rejects (schema : list (string * field)) (r : Row) name f e :
  In (name, f) schema ->
  Field_deserialize lib f (r !! name) = inl e ->
  In (name, e) (load_fields lib schema r).1.
Proof.
  induction schema as [|[n g] rest IH]; intros Hin Hf; [destruct Hin|].
  simpl. destruct (load_fields lib rest r) as [errs v] eqn:E.
  destruct Hin as [[= -> ->]|Hin].
  - rewrite Hf. by left.
  - specialize (IH Hin Hf). simpl in IH.
    destruct (Field_deserialize lib g (r !! n)) as [e'|[d|]]; simpl; auto.
Qed.

Lemma load_row_rejects (schema : list (string * field)) (r : Row) name f e :
  In (name, f) schema ->
  Field_deserialize lib f (r !! name) = inl e ->
  exists errs, load_row lib schema r = inl errs /\ In (name, e) errs.
Proof.
  intros Hin Hf. pose proof (load_fields_rejects schema r name f e Hin Hf) as H.
  unfold load_row. destruct (load_fields lib schema r) as [errs v]. simpl in H.
  destruct (errs ++ unknown_fields schema r) as [|x l] eqn:E.
  - apply app_eq_nil in E as [-> _]. destruct H.
  - eexists; split; [done|]. rewrite <- E. apply in_or_app. by left.
Qed.

(** A row the schema accepts has only declared columns. *)
Lemma load_row_known (schema : list (string * field)) (r : Row) d k v :
  load_row lib schema r = inr d -> r !! k = Some v -> In k (map fst schema).
Proof.
  unfold load_row. destruct (load_fields lib schema r) as [errs valid].
  destruct (errs ++ unknown_fields schema r) eqn:E; [|discriminate].
  intros _ Hk. apply app_eq_nil in E as [_ E]. unfold unknown_fields in E.
  apply map_eq_nil in E.
  destruct (decide (k ∈ map fst schema)) as [Hin|Hout].
  - by apply list_elem_of_In.
  - assert ((k, v) ∈ filter (fun kv : string * value => kv.1 ∉ map fst schema)
                            (map_to_list r)) as Hf.
    { apply list_elem_of_filter. split; [done|]. by apply elem_of_map_to_list. }
    rewrite E in Hf. by apply elem_of_nil in Hf.
Qed.

(** A row the schema accepts has no null and no NaN cell. *)
Lemma valid_row_no_null (r : Row) :
  valid_row lib r -> map_Forall (fun _ v => is_null v = false) r.
Proof.
  intros [d Hd] k v Hk.
  pose proof (load_row_known _ _ _ _ _ Hd Hk) as Hin.
  unfold load_row in Hd.
  destruct (load_fields lib PatientDataSchema r) as [errs valid] eqn:E.
  destruct (errs ++ unknown_fields PatientDataSchema r) eqn:E'; [|discriminate].
  apply app_eq_nil in E' as [-> _].
  apply in_map_iff in Hin as [[n f] [Hn Hin]]. simpl in Hn. subst n.
  destruct (load_fields_accepts _ _ _ E k f Hin) as [x Hx].
  rewrite Hk in Hx. by eapply Field_deserialize_not_null.
Qed.

Lemma load_rows_accepts (rows : list Row) (i : nat) valid :
  load_rows lib PatientDataSchema i rows = ([], valid) -> Forall (valid_row lib) rows.
Proof.
  revert i valid. induction rows as [|r rest IH]; intros i valid Hl; [constructor|].
  simpl in Hl. destruct (load_rows lib PatientDataSchema (S i) rest) as [errs v] eqn:E.
  destruct (load_row lib PatientDataSchema r) as [e|d] eqn:F; [discriminate|].
  injection Hl as -> _. constructor; [by exists d | by eapply IH].
Qed.

Lemma load_rows_all_valid (rows : list Row) (i : nat) :
  Forall (valid_row lib) rows -> (load_rows lib PatientDataSchema i rows).1 = [].
Proof.
  intros H. revert i. induction H as [|r rest [d Hd] _ IH]; intros i; [done|].
  simpl. specialize (IH (S i)).
  destruct (load_rows lib PatientDataSchema (S i) rest) as [errs v].
  rewrite Hd. done.
Qed.

(** The messages hold one entry per failing row, under its index. *)
Lemma load_rows_one_invalid (rows : list Row) (i k : nat) rk errs :
  rows !! k = Some rk ->
  load_row lib PatientDataSchema rk = inl errs ->
  (forall j r, j <> k -> rows !! j = Some r -> valid_row lib r) ->
  (load_rows lib PatientDataSchema i rows).1 = [((i + k)%nat, errs)].
Proof.
  revert i k. induction rows as [|r rest IH]; intros i k Hk He Hothers; [done|].
  destruct k as [|k]; simpl in Hk.
  - injection Hk as ->. simpl.
    assert (Forall (valid_row lib) rest) as Hrest.
    { apply Forall_lookup. intros j x Hj. by apply (Hothers (S j) x). }
    pose proof (load_rows_all_valid rest (S i) Hrest) as Hnil.
    destruct (load_rows lib PatientDataSchema (S i) rest) as [e v]. simpl in Hnil. subst e.
    rewrite He. simpl. by rewrite Nat.add_0_r.
  - simpl.
    assert ((load_rows lib PatientDataSchema (S i) rest).1 = [((S i + k)%nat, errs)]) as Hr.
    { apply IH; [done|done|]. intros j x Hj Hx. apply (Hothers (S j) x); [lia|done]. }
    destruct (load_rows lib PatientDataSchema (S i) rest) as [e v]. simpl in Hr. subst e.
    destruct (Hothers 0%nat r) as [d Hd]; [lia|done|].
    rewrite Hd. simpl. f_equal. f_equal. lia.
Qed.

Lemma load_rows_invalid (rows : list Row) (i : nat) r errs :
  In r rows -> load_row lib PatientDataSchema r = inl errs ->
  (load_rows lib PatientDataSchema i rows).1 <> [].
Proof.
  revert i. induction rows as [|x rest IH]; intros i Hin He; [destruct Hin|].
  simpl. specialize (IH (S i)).
  destruct (load_rows lib PatientDataSchema (S i) rest) as [e v]. simpl in IH.
  destruct Hin as [->|Hin].
  - by rewrite He.
  - destruct (load_row lib PatientDataSchema x); simpl; auto.
Qed.

Lemma Schema_load_accepts (rows : list Row) vd :
  Schema_load lib PatientDataSchema rows = Ok vd -> Forall (valid_row lib) rows.
Proof.
  unfold Schema_load.
  destruct (load_rows lib PatientDataSchema 0 rows) as [[|m ms] v] eqn:E; [|discriminate].
  intros _. by eapply load_rows_accepts.
Qed.

Lemma Schema_load_rejects (rows : list Row) r errs :
  In r rows -> load_row lib PatientDataSchema r = inl errs ->
  exists m, Schema_load lib PatientDataSchema rows = Raise (ValidationError m).
Proof.
  intros Hin He. pose proof (load_rows_invalid rows 0 r errs Hin He) as H.
  unfold Schema_load. destruct (load_rows lib PatientDataSchema 0 rows) as [[|m ms] v]; [done|].
  eauto.
Qed.

(** So [dropna] removes nothing from a frame the schema accepts. *)
Lemma dropna_valid (rows : list Row) :
  Forall (valid_row lib) rows -> dropna rows = rows.
Proof.
  induction 1 as [|r rest Hr _ IH]; [done|].
  unfold dropna in *. rewrite filter_cons, IH.
  destruct (decide _) as [|Hn]; [done|]. destruct Hn. by apply valid_row_no_null.
Qed.

End Validation.

(** ** The upload endpoint *)

Section UploadClaims.
Context {Store : Type} `{!Container Store}.
Variable lib : Library.

Lemma upsert_all_prefix (rows : list Row) (s : Store) :
  (upsert_all rows s).1.2 `prefix_of` rows.
Proof.
  revert s. induction rows as [|r rest IH]; intros s; simpl; [done|].
  destruct (upsert_item r s) as [s'|e]; simpl.
  - specialize (IH s'). destruct (upsert_all rest s') as [[s'' calls] e]. simpl in *.
    by apply prefix_cons.
  - apply prefix_cons, prefix_nil.
Qed.

Lemma upsert_all_complete (rows : list Row) (s s' : Store) calls :
  upsert_all rows s = (s', calls, None) -> calls = rows.
Proof.
  revert s s' calls. induction rows as [|r rest IH]; intros s s' calls; simpl.
  - by intros [= _ <-].
  - destruct (upsert_item r s) as [s1|e]; [|discriminate].
    destruct (upsert_all rest s1) as [[s2 c] e] eqn:E.
    intros [= <- <- ->]. f_equal. by eapply IH.
Qed.

(** A frame with a row the schema refuses is refused as a whole: HTTP 400,
    and neither the container nor the trace of sink calls changes. *)
Lemma invalid_row_refuses_upload (request : Request) (w : World Store) file df r errs :
  multidict_get "file" (files request) = Some file ->
  read_csv lib (stream file) = Ok df ->
  In r df ->
  load_row lib PatientDataSchema r = inl errs ->
  exists w' message,
    DataUpload_post lib request w = (w', Ok (ErrorBody message, 400)) /\
    sink_calls w' = sink_calls w /\ store w' = store w.
Proof.
  intros Hfile Hcsv Hin Herr.
  rewrite DataUpload_post_outcome. unfold post_outcome. rewrite Hfile.
  destruct (endswith (filename file) ".csv");
    [|by eexists _, _; split; [reflexivity|]].
  rewrite Hcsv.
  destruct (Schema_load_rejects lib df r errs Hin Herr) as [m ->].
  by eexists _, _; split; [reflexivity|].
Qed.

(** C8: an upload request with no file attached, or whose file name does
    not end in ".csv", is answered with HTTP 400 and leaves the world as it
    was: no file is saved, no row is read or validated, nothing is logged
    and [container.upsert_item] is never called. *)
Theorem request_error_aborts_before_processing (request : Request) (w : World Store) :
  multidict_get "file" (files request) = None \/
  (exists file, multidict_get "file" (files request) = Some file /\
                endswith (filename file) ".csv" = false) ->
  exists message, DataUpload_post lib request w = (w, Ok (ErrorBody message, 400)).
Proof.
  intros [Hnone|[file [Hfile Hext]]];
    rewrite DataUpload_post_outcome; unfold post_outcome.
  - rewrite Hnone. eauto.
  - rewrite Hfile, Hext. eauto.
Qed.

(** C7 (amended): when the body of the handler raises an exception [e], the
    service logs it and answers HTTP 500 with a body whose [error] is the
    text of the exception itself, [str(e)]. *)
Theorem internal_error_returns_exception_text (request : Request) (w w' : World Store) e :
  post_try lib request w = (w', Raise e) ->
  exists w'',
    DataUpload_post lib request w = (w'', Ok (ErrorBody (str lib e), 500)) /\
    logs w'' = logs w' ++ [("ERROR", ("Error uploading data: " ++ str lib e)%string)] /\
    store w'' = store w' /\ sink_calls w'' = sink_calls w'.
Proof.
  intros H. unfold DataUpload_post, try_except. rewrite H.
  eexists. split; [reflexivity|]. done.
Qed.

(** C2 (amended): when exactly one row, at index [k], of a batch fails
    validation, the upload is refused as a whole with HTTP 400; the messages
    of the validation error hold exactly one entry, under index [k]; and no
    row of the batch, before or after [k], is handed to the sink. *)
Theorem one_invalid_row_refuses_batch (request : Request) (w : World Store)
    file df (k : nat) rk errs :
  multidict_get "file" (files request) = Some file ->
  endswith (filename file) ".csv" = true ->
  read_csv lib (stream file) = Ok df ->
  df !! k = Some rk ->
  load_row lib PatientDataSchema rk = inl errs ->
  (forall j r, j <> k -> df !! j = Some r -> valid_row lib r) ->
  exists w',
    DataUpload_post lib request w =
      (w', Ok (ErrorBody ("Data validation failed: " ++ str lib (ValidationError [(k, errs)])),
               400)) /\
    sink_calls w' = sink_calls w /\ store w' = store w.
Proof.
  intros Hfile Hext Hcsv Hk Herr Hothers.
  rewrite DataUpload_post_outcome. unfold post_outcome. rewrite Hfile, Hext, Hcsv.
  pose proof (load_rows_one_invalid lib df 0 k rk errs Hk Herr Hothers) as Hm.
  unfold Schema_load.
  destruct (load_rows lib PatientDataSchema 0 df) as [m v]. simpl in Hm. subst m.
  eexists. split; [reflexivity|]. done.
Qed.

Lemma valid_row_patient_id (r : Row) :
  valid_row lib r -> exists s, r !! "patient_id" = Some (VStr s).
Proof.
  intros [d Hd]. unfold load_row in Hd.
  destruct (load_fields lib PatientDataSchema r) as [errs valid] eqn:E.
  destruct (errs ++ unknown_fields PatientDataSchema r) eqn:E'; [|discriminate].
  apply app_eq_nil in E' as [-> _].
  destruct (load_fields_accepts lib _ _ _ E "patient_id" (String_ true)) as [x Hx];
    [by left|].
  destruct (r !! "patient_id") as [[]|]; try discriminate. eauto.
Qed.

(** C3 (amended): for a frame as pandas reads it (an empty cell is NaN,
    never the empty string), a row whose [patient_id] is absent is refused
    with MissingField("patient_id") and a row whose [patient_id] cell is
    empty is refused with an invalid-format error on [patient_id]; the
    upload that carries such a row is answered with HTTP 400 and hands no
    row to the sink.  Whatever the answer, every row handed to the sink has
    a [patient_id] that is a non-empty string. *)
Theorem missing_or_empty_patient_id_refused (request : Request) (w : World Store) file df :
  multidict_get "file" (files request) = Some file ->
  read_csv lib (stream file) = Ok df ->
  read_by_pandas df ->
  (forall r, In r df ->
     r !! "patient_id" = None \/ r !! "patient_id" = Some VNaN ->
     (exists errs,
        load_row lib PatientDataSchema r = inl errs /\
        In ("patient_id",
            [match r !! "patient_id" with
             | None => MissingField
             | Some _ => InvalidFormat
             end]) errs) /\
     (exists w' message,
        DataUpload_post lib request w = (w', Ok (ErrorBody message, 400)) /\
        sink_calls w' = sink_calls w /\ store w' = store w)) /\
  (exists calls,
     sink_calls (DataUpload_post lib request w).1 = sink_calls w ++ calls /\
     forall r, In r calls -> exists s, r !! "patient_id" = Some (VStr s) /\ s <> "").
Proof.
  intros Hfile Hcsv Hpandas. split.
  - intros r Hin Hpid.
    assert (exists errs,
      load_row lib PatientDataSchema r = inl errs /\
      In ("patient_id",
          [match r !! "patient_id" with
           | None => MissingField
           | Some _ => InvalidFormat
           end]) errs) as [errs [He Hi]].
    { apply (load_row_rejects lib PatientDataSchema r "patient_id" (String_ true));
        [by left|].
      by destruct Hpid as [->| ->]. }
    split; [by eauto|]. by eapply invalid_row_refuses_upload.
  - rewrite DataUpload_post_outcome. unfold post_outcome, failed. rewrite Hfile.
    destruct (endswith (filename file) ".csv");
      [|by exists []; rewrite app_nil_r].
    rewrite Hcsv.
    destruct (Schema_load lib PatientDataSchema df) as [vd|e] eqn:Hload;
      [|by exists []; cbn; rewrite app_nil_r].
    destruct (createDataFrame_raises lib df) as [e|];
      [by exists []; cbn; rewrite app_nil_r|].
    pose proof (Schema_load_accepts lib df vd Hload) as Hvalid.
    rewrite (dropna_valid lib df Hvalid).
    pose proof (upsert_all_prefix df (store w)) as [rest Hp].
    assert (forall r, In r (upsert_all df (store w)).1.2 ->
                      exists s, r !! "patient_id" = Some (VStr s) /\ s <> "") as Hcalls.
    { intros r Hr.
      assert (In r df) as Hin by (rewrite Hp; apply in_or_app; by left).
      apply list_elem_of_In in Hin.
      destruct (valid_row_patient_id r) as [s Hs].
      { rewrite Forall_forall in Hvalid. by apply Hvalid. }
      exists s. split; [done|]. intros ->.
      unfold read_by_pandas in Hpandas. rewrite Forall_forall in Hpandas.
      by specialize (Hpandas r Hin "patient_id" (VStr "") Hs). }
    destruct (upsert_all df (store w)) as [[s calls] [e|]]; exists calls; cbn; done.
Qed.

(** C4 (amended): a row whose [age] is present and does not coerce under
    [int] to an integer of [0,120] is refused: with OutOfRange("age") exactly
    when [int] gives an integer (outside the range), with another error on
    [age] when [int] gives none.  The upload that carries such a row is
    answered with HTTP 400 and hands no row to the sink. *)
Theorem age_out_of_range_refused (request : Request) (w : World Store) file df r v :
  multidict_get "file" (files request) = Some file ->
  read_csv lib (stream file) = Ok df ->
  In r df ->
  r !! "age" = Some v ->
  (forall z, int_coercion lib v = Some z -> z < 0 \/ 120 < z) ->
  (exists errs e,
     load_row lib PatientDataSchema r = inl errs /\
     In ("age", [e]) errs /\
     (e = OutOfRange <-> is_Some (int_coercion lib v))) /\
  (exists w' message,
     DataUpload_post lib request w = (w', Ok (ErrorBody message, 400)) /\
     sink_calls w' = sink_calls w /\ store w' = store w).
Proof.
  intros Hfile Hcsv Hin Hage Hbad.
  assert (exists e, Field_deserialize lib (Integer_ false [Range 0 120]) (Some v) = inl [e] /\
                    (e = OutOfRange <-> is_Some (int_coercion lib v))) as [e [He Hiff]].
  { unfold int_coercion in *. unfold Field_deserialize, _validate.
    destruct v; simpl in *;
      try (eexists; split; [reflexivity|]; split; [discriminate|by intros [? ?]]).
    - destruct (int_of_str lib s) as [z|] eqn:Es; simpl.
      + destruct ((0 <=? z) && (z <=? 120))%Z eqn:Hr;
          [destruct (Hbad z eq_refl); lia|].
        eexists; split; [reflexivity|]; split; eauto.
      + eexists; split; [reflexivity|]; split; [discriminate|by intros [? ?]].
    - destruct ((0 <=? z) && (z <=? 120))%Z eqn:Hr;
        [destruct (Hbad z eq_refl); lia|].
      eexists; split; [reflexivity|]; split; eauto.
    - destruct ((0 <=? int_of_float q) && (int_of_float q <=? 120))%Z eqn:Hr;
        [destruct (Hbad _ eq_refl); lia|].
      eexists; split; [reflexivity|]; split; eauto. }
  destruct (load_row_rejects lib PatientDataSchema r "age" (Integer_ false [Range 0 120]) [e])
    as [errs [Herrs Hi]]; [right; by left|by rewrite Hage|].
  split; [by eauto 6|].
  by eapply invalid_row_refuses_upload.
Qed.

(** What an HTTP 200 tells about the run. *)
Lemma upload_success (request : Request) (w w' : World Store) b :
  DataUpload_post lib request w = (w', Ok (b, 200)) ->
  exists file df,
    multidict_get "file" (files request) = Some file /\
    endswith (filename file) ".csv" = true /\
    read_csv lib (stream file) = Ok df /\
    Forall (valid_row lib) df /\
    b = UploadBody "Data uploaded successfully" (length df) /\
    sink_calls w' = sink_calls w ++ df /\
    upsert_all df (store w) = (store w', df, None).
Proof.
  rewrite DataUpload_post_outcome. unfold post_outcome, failed.
  destruct (multidict_get "file" (files request)) as [file|]; [|discriminate].
  destruct (endswith (filename file) ".csv") eqn:Hext; [|discriminate].
  destruct (read_csv lib (stream file)) as [df|e] eqn:Hcsv; [|discriminate].
  destruct (Schema_load lib PatientDataSchema df) as [vd|e] eqn:Hload; [|discriminate].
  destruct (createDataFrame_raises lib df) as [e|]; [discriminate|].
  pose proof (Schema_load_accepts lib df vd Hload) as Hvalid.
  rewrite (dropna_valid lib df Hvalid).
  destruct (upsert_all df (store w)) as [[s calls] [e|]] eqn:Hup; [discriminate|].
  intros [= <- <-]. simpl.
  pose proof (upsert_all_complete _ _ _ _ Hup) as ->.
  by exists file, df.
Qed.

(** C6: when an upload is answered with HTTP 200, the [records] of the body
    is the number of rows the pipeline accepted and persisted: every one of
    these rows passed the schema, every one was handed to
    [container.upsert_item] (in order) and none of these calls raised. *)
Theorem records_counts_persisted_rows (request : Request) (w w' : World Store) b :
  DataUpload_post lib request w = (w', Ok (b, 200)) ->
  exists rows,
    b = UploadBody "Data uploaded successfully" (length rows) /\
    Forall (valid_row lib) rows /\
    sink_calls w' = sink_calls w ++ rows /\
    upsert_all rows (store w) = (store w', rows, None).
Proof.
  intros H. destruct (upload_success _ _ _ _ H) as (file & df & _ & _ & _ & ? & ? & ? & ?).
  by exists df.
Qed.

(** C10: once the batch has passed validation, the rows handed to
    [container.upsert_item] are rows of the parsed frame itself, those left
    by [dropna], in order: a prefix of them in general (the loop stops at the
    first call that raises, or never starts when Spark raises) and all of
    them when the answer is HTTP 200.  The validated data takes no part. *)
Theorem persisted_rows_are_raw_rows (request : Request) (w : World Store)
    file df validated_data :
  multidict_get "file" (files request) = Some file ->
  endswith (filename file) ".csv" = true ->
  read_csv lib (stream file) = Ok df ->
  Schema_load lib PatientDataSchema df = Ok validated_data ->
  exists w' response calls,
    DataUpload_post lib request w = (w', Ok response) /\
    sink_calls w' = sink_calls w ++ calls /\
    calls `prefix_of` dropna df /\
    (status response = 200 -> calls = dropna df /\
       upsert_all (dropna df) (store w) = (store w', dropna df, None)).
Proof.
  intros Hfile Hext Hcsv Hload.
  rewrite DataUpload_post_outcome. unfold post_outcome, failed.
  rewrite Hfile, Hext, Hcsv, Hload.
  destruct (createDataFrame_raises lib df) as [e|].
  { eexists _, _, []. split; [reflexivity|]. simpl. rewrite app_nil_r.
    split; [done|]. split; [apply prefix_nil|]. discriminate. }
  pose proof (upsert_all_prefix (dropna df) (store w)) as Hp.
  destruct (upsert_all (dropna df) (store w)) as [[s calls] [e|]] eqn:Hup; simpl in Hp.
  - eexists _, _, calls. split; [reflexivity|]. simpl. repeat split; try done.
  - eexists _, _, calls. split; [reflexivity|]. simpl. split; [done|]. split; [done|].
    intros _. pose proof (upsert_all_complete _ _ _ _ Hup) as ->. done.
Qed.

End UploadClaims.

(** ** Uploads into a container with exact read-back *)

Section Keyed.
Variable key : Row -> result string.
Variable query : string -> list (string * string) -> gmap string Row -> result (list Row).
Variable lib : Library.

Lemma upsert_all_keyed (rows : list Row) (s : gmap string Row) :
  upsert_all (Container0 := keyed_container key query) rows s =
  let '(ws, calls, e) := keyed_writes key rows in (insert_all ws s, calls, e).
Proof.
  revert s. induction rows as [|r rest IH]; intros s; simpl; [done|].
  unfold keyed_upsert. destruct (key r) as [k|e]; [|done].
  rewrite IH. by destruct (keyed_writes key rest) as [[ws calls] e].
Qed.

Lemma insert_all_lookup (ws : list (string * Row)) (s : gmap string Row) (k : string) :
  insert_all ws s !! k =
  match last_write k ws with
  | Some r => Some r
  | None => s !! k
  end.
Proof.
  revert s. induction ws as [|[k' r] rest IH]; intros s; simpl; [done|].
  rewrite IH. destruct (last_write k rest); [done|].
  destruct (decide (k' = k)) as [->|Hne].
  - by rewrite lookup_insert_eq.
  - by rewrite lookup_insert_ne.
Qed.

Lemma insert_all_idempotent (ws : list (string * Row)) (s : gmap string Row) :
  insert_all ws (insert_all ws s) = insert_all ws s.
Proof.
  apply map_eq. intros k. rewrite !insert_all_lookup.
  by destruct (last_write k ws).
Qed.

Lemma upsert_all_again (rows : list Row) (s s' : gmap string Row) calls e :
  upsert_all (Container0 := keyed_container key query) rows s = (s', calls, e) ->
  upsert_all (Container0 := keyed_container key query) rows s' = (s', calls, e).
Proof.
  rewrite !upsert_all_keyed.
  destruct (keyed_writes key rows) as [[ws c] x].
  intros [= <- <- <-]. by rewrite insert_all_idempotent.
Qed.

(** C5: uploading the same request twice leaves the container in the state
    the first upload left it in, for every container that keeps under each
    key the last document written there. *)
Theorem upload_twice_same_store (request : Request) (w : World (gmap string Row)) :
  store (DataUpload_post (Container0 := keyed_container key query) lib request
           (DataUpload_post (Container0 := keyed_container key query) lib request w).1).1 =
  store (DataUpload_post (Container0 := keyed_container key query) lib request w).1.
Proof.
  rewrite !DataUpload_post_outcome. unfold post_outcome, failed.
  destruct (multidict_get "file" (files request)) as [file|]; [|done].
  destruct (endswith (filename file) ".csv"); [|done].
  destruct (read_csv lib (stream file)) as [df|e]; [|done].
  destruct (Schema_load lib PatientDataSchema df) as [vd|e]; [|done].
  destruct (createDataFrame_raises lib df) as [e|]; [done|].
  destruct (upsert_all (Container0 := keyed_container key query) (dropna df) (store w))
    as [[s calls] e] eqn:Hup.
  apply upsert_all_again in Hup.
  destruct e as [e|]; cbn [fst store]; rewrite Hup; done.
Qed.

End Keyed.

(** ** Uploads into the store of the specification, keyed by patient_id *)

Section PatientKeyed.
Variable query : string -> list (string * string) -> gmap string Row -> result (list Row).
Variable lib : Library.

Lemma key_by_patient_id (r : Row) (k pid : string) :
  key_by "patient_id" r = Ok k -> has_patient_id pid r = bool_decide (k = pid).
Proof.
  unfold key_by, has_patient_id.
  destruct (r !! "patient_id") as [[]|]; try discriminate.
  intros [= ->]. destruct (String.eqb_spec k pid) as [->|Hne].
  - by rewrite bool_decide_eq_true_2.
  - by rewrite bool_decide_eq_false_2.
Qed.

Lemma upsert_all_last_with (rows : list Row) (s s' : gmap string Row) calls (pid : string) :
  upsert_all (Container0 := keyed_container (key_by "patient_id") query) rows s
    = (s', calls, None) ->
  s' !! pid = match last_with pid rows with
              | Some r => Some r
              | None => s !! pid
              end.
Proof.
  unfold last_with. revert s s' calls.
  induction rows as [|r rest IH]; intros s s' calls; simpl.
  - by intros [= <- _].
  - unfold keyed_upsert. destruct (key_by "patient_id" r) as [k|e] eqn:Hk; [|discriminate].
    destruct (upsert_all (Container0 := keyed_container (key_by "patient_id") query)
                rest (<[k:=r]> s)) as [[s2 c] e] eqn:E.
    intros [= <- _ ->]. rewrite (IH _ _ _ E).
    rewrite (key_by_patient_id r k pid Hk).
    destruct (decide (k = pid)) as [->|Hne].
    + rewrite bool_decide_eq_true_2 by done. rewrite last_cons.
      destruct (last (List.filter (has_patient_id pid) rest)); [done|].
      by rewrite lookup_insert_eq.
    + rewrite bool_decide_eq_false_2 by done.
      destruct (last (List.filter (has_patient_id pid) rest)); [done|].
      by rewrite lookup_insert_ne.
Qed.

(** C1 (amended): the pipeline does not deduplicate.  When an upload is
    answered with HTTP 200, every row of the batch was handed to the sink,
    in file order; so in a store keyed by patient_id the document left under
    a patient_id of the batch is the last row of the batch with that
    patient_id, whatever the timestamps. *)
Theorem last_row_in_file_order_wins (request : Request) (w w' : World (gmap string Row))
    b file batch :
  multidict_get "file" (files request) = Some file ->
  read_csv lib (stream file) = Ok batch ->
  DataUpload_post (Container0 := keyed_container (key_by "patient_id") query)
    lib request w = (w', Ok (b, 200)) ->
  sink_calls w' = sink_calls w ++ batch /\
  forall pid, store w' !! pid = match last_with pid batch with
                                | Some r => Some r
                                | None => store w !! pid
                                end.
Proof.
  intros Hfile Hcsv H.
  destruct (upload_success _ _ _ _ _ H) as (f & df & Hf & _ & Hdf & _ & _ & Hcalls & Hup).
  rewrite Hfile in Hf. injection Hf as <-.
  rewrite Hcsv in Hdf. injection Hdf as <-.
  split; [done|]. intros pid. by eapply upsert_all_last_with.
Qed.

End PatientKeyed.

(** ** The anomalies endpoint *)

Section AnomaliesClaims.
Context {Store : Type} `{!Container Store}.
Variable lib : Library.

Lemma boolean_index_filter (g : Row -> bool) (rows : list Row) :
  boolean_index rows (map g rows) = List.filter g rows.
Proof.
  induction rows as [|r rest IH]; simpl; [done|].
  rewrite IH. done.
Qed.

Lemma above_threshold_lt (p : option Q) :
  above_threshold p = true <-> exists q, p = Some q /\ (1 # 2 < q)%Q.
Proof.
  unfold above_threshold. destruct p as [q|].
  - rewrite negb_true_iff. split.
    + intros H. exists q. split; [done|].
      apply Qnot_le_lt. intros Hle. apply Qle_bool_iff in Hle. congruence.
    + intros (q' & [= <-] & H). destruct (Qle_bool q (1 # 2)) eqn:E; [|done].
      apply Qle_bool_iff in E. by apply Qlt_not_le in H.
  - split; [discriminate|]. by intros (q & ? & _).
Qed.

(** A frame built from documents that have fields has a column. *)
Lemma all_columns_nonempty (item : Row) (items : list Row) :
  item <> ∅ -> all_columns (item :: items) <> [].
Proof.
  intros Hne Hnil. unfold all_columns in Hnil.
  apply elements_empty_inv in Hnil.
  destruct (map_choose item Hne) as (k & v & Hk).
  assert (k ∈ (⋃ (dom <$> item :: items) : gset string)) as Hin.
  { apply elem_of_union_list. exists (dom item). split.
    - rewrite fmap_cons. apply list_elem_of_here.
    - apply elem_of_dom. eauto. }
  rewrite Hnil in Hin. by apply elem_of_empty in Hin.
Qed.

(** C9: when the anomalies endpoint answers HTTP 200, each document the
    query returned has its row in the frame, and that row is in the
    [anomalies] of the body if and only if the score of the classifier on its
    vector of numeric cells is strictly above 0.5 (documents being objects
    with at least one field). *)
Theorem anomalies_are_scores_above_half (w w' : World Store) items anomalies :
  query_items "SELECT * FROM c WHERE c.timestamp > @recent ORDER BY c.timestamp DESC"
              [("@recent", isoformat lib (now w - 7 * 86400))] (store w) = Ok items ->
  Forall (fun item : Row => item <> ∅) items ->
  Anomalies_get lib w = (w', Ok (AnomaliesBody anomalies, 200)) ->
  length (records (pd_DataFrame lib items)) = length items /\
  forall r, In r (records (pd_DataFrame lib items)) ->
    (In r anomalies
     <-> exists q,
           score lib (feature_vector [float64; int64] (pd_DataFrame lib items) r) = Some q /\
           (1 # 2 < q)%Q).
Proof.
  intros Hq Hfields.
  unfold Anomalies_get, try_except, get_try.
  unfold bind at 1. unfold utcnow.
  unfold bind at 1. unfold container_query_items.
  rewrite Hq. intros H.
  set (df := pd_DataFrame lib items) in *. split.
  { subst df. unfold pd_DataFrame. simpl. by rewrite length_map. }
  revert H. unfold bind at 1.
  destruct (df_empty df) eqn:Hempty; simpl.
  - (* the frame is empty: the query returned no document *)
    intros _. assert (items = []) as ->.
    { destruct items as [|item rest]; [done|]. exfalso.
      apply Forall_cons in Hfields as [Hitem _].
      pose proof (all_columns_nonempty item rest Hitem) as Hcols.
      unfold df_empty in Hempty. subst df. unfold pd_DataFrame in Hempty. simpl in Hempty.
      destruct (all_columns (item :: rest)); [done|discriminate]. }
    intros r [].
  - unfold bind at 1. unfold model_predict.
    destruct (predict_raises lib _); [discriminate|].
    unfold ret. intros [= <- <-]. intros r Hr.
    unfold select_dtypes_values. rewrite !map_map, boolean_index_filter.
    rewrite filter_In, above_threshold_lt. tauto.
Qed.

End AnomaliesClaims.

(** ** The claims on concrete uploads *)

(** C1 fails as stated: for the two rows of p1 with the later timestamp
    first, both rows are handed to the sink, and the document left under p1
    is the row with the earlier timestamp (age 45), not the one the
    specification's normalizer selects (age 46). *)
Lemma later_timestamp_does_not_win :
  (Demo.run_upload "batch.csv" Demo.reversed_csv).2 =
    Ok (UploadBody "Data uploaded successfully" 2, 200) /\
  sink_calls (Demo.run_upload "batch.csv" Demo.reversed_csv).1 = [Demo.p1_jan2; Demo.p1_jan1] /\
  Demo.field_of (spec_winner Demo.lib "p1" [Demo.p1_jan2; Demo.p1_jan1]) "age" = Some (VInt 46) /\
  Demo.field_of (store (Demo.run_upload "batch.csv" Demo.reversed_csv).1 !! "p1") "age"
    = Some (VInt 45) /\
  Demo.field_of (store (Demo.run_upload "batch.csv" Demo.reversed_csv).1 !! "p1") "timestamp"
    = Some (VStr "2024-01-01T00:00:00Z") /\
  store (Demo.run_upload "batch.csv" Demo.reversed_csv).1 !! "p1"
    <> spec_winner Demo.lib "p1" [Demo.p1_jan2; Demo.p1_jan1].
Proof.
  repeat split; try (vm_compute; reflexivity).
  intros H. apply (f_equal (fun doc => Demo.field_of doc "age")) in H.
  vm_compute in H. discriminate.
Qed.

(** The scenario of the specification under the amended C1: the last row of
    the file, which here is also the later one, is the document left
    under p1. *)
Lemma scenario_last_row_wins :
  store (Demo.run_upload "batch.csv" Demo.scenario_csv).1 !! "p1" = Some Demo.p1_jan2.
Proof.
  refine (proj2 (last_row_in_file_order_wins Demo.all_documents Demo.lib
                   (Demo.upload "batch.csv" Demo.scenario_csv) (Demo.world ∅)
                   (Demo.run_upload "batch.csv" Demo.scenario_csv).1
                   (UploadBody "Data uploaded successfully" 2)
                   {| filename := "batch.csv"; stream := Demo.scenario_csv |}
                   [Demo.p1_jan1; Demo.p1_jan2] _ _ _) "p1").
  - reflexivity.
  - vm_compute. reflexivity.
  - vm_compute. reflexivity.
Defined.

(** C2 fails as stated: of three rows the second fails validation; the
    answer is HTTP 400 and the third row, valid and after the failing one,
    is not handed to the sink, nor is the first. *)
Lemma rows_after_invalid_row_not_persisted :
  valid_row Demo.lib Demo.p1_jan1 /\
  load_row Demo.lib PatientDataSchema Demo.p2_age200 = inl [("age", [OutOfRange])] /\
  valid_row Demo.lib Demo.p3_valid /\
  (Demo.run_upload "batch.csv" Demo.partial_csv).2 =
    Ok (ErrorBody
          ("Data validation failed: " ++
           "{1: {'age': ['Must be greater than or equal to 0 and less than or equal to 120.']}}"),
        400) /\
  sink_calls (Demo.run_upload "batch.csv" Demo.partial_csv).1 = [] /\
  store (Demo.run_upload "batch.csv" Demo.partial_csv).1 !! "p3" = None.
Proof.
  repeat split; try (vm_compute; reflexivity);
    eexists; vm_compute; reflexivity.
Qed.

(** The three-row file again: the messages hold the one entry of row 1. *)
Lemma one_invalid_row_refuses_batch_witness :
  exists w',
    Demo.run_upload "batch.csv" Demo.partial_csv =
      (w', Ok (ErrorBody ("Data validation failed: "
                          ++ str Demo.lib (ValidationError [(1%nat, [("age", [OutOfRange])])])),
               400)) /\
    sink_calls w' = [] /\ store w' = ∅.
Proof.
  apply (one_invalid_row_refuses_batch (Container0 := Demo.container) Demo.lib
           (Demo.upload "batch.csv" Demo.partial_csv) (Demo.world ∅)
           {| filename := "batch.csv"; stream := Demo.partial_csv |}
           [Demo.p1_jan1; Demo.p2_age200; Demo.p3_valid] 1 Demo.p2_age200).
  - reflexivity.
  - reflexivity.
  - vm_compute. reflexivity.
  - reflexivity.
  - vm_compute. reflexivity.
  - intros j r Hj Hr.
    destruct j as [|[|[|j]]]; simpl in Hr; try discriminate; try lia;
      injection Hr as <-; eexists; vm_compute; reflexivity.
Defined.

(** C3 fails as stated on the kind of the error: the empty patient_id cell
    of the second row is NaN after pandas, and the schema refuses it as not
    a valid string, not as a missing field. *)
Lemma empty_patient_id_invalid_not_missing :
  read_csv DemoEmptyCell.lib DemoEmptyCell.empty_id_csv
    = Ok [Demo.p1_jan1; DemoEmptyCell.empty_id_row] /\
  DemoEmptyCell.empty_id_row !! "patient_id" = Some VNaN /\
  load_row DemoEmptyCell.lib PatientDataSchema DemoEmptyCell.empty_id_row
    = inl [("patient_id", [InvalidFormat])] /\
  ~ In ("patient_id", [MissingField]) [("patient_id", [InvalidFormat])] /\
  (DemoEmptyCell.run_upload "batch.csv" DemoEmptyCell.empty_id_csv).2
    = Ok (ErrorBody ("Data validation failed: " ++
                     "{1: {'patient_id': ['Not a valid string.']}}"), 400).
Proof.
  split_and!; try (vm_compute; reflexivity).
  intros [H|[]]. discriminate.
Qed.

(** The file with the empty cell is refused, with the invalid-format error
    on patient_id, and hands nothing to the sink. *)
Lemma missing_or_empty_patient_id_refused_witness :
  (exists errs,
     load_row DemoEmptyCell.lib PatientDataSchema DemoEmptyCell.empty_id_row = inl errs /\
     In ("patient_id", [InvalidFormat]) errs) /\
  (exists w' message,
     DemoEmptyCell.run_upload "batch.csv" DemoEmptyCell.empty_id_csv
       = (w', Ok (ErrorBody message, 400)) /\
     sink_calls w' = [] /\ store w' = ∅).
Proof.
  refine (proj1 (missing_or_empty_patient_id_refused (Container0 := Demo.container)
           DemoEmptyCell.lib
           (Demo.upload "batch.csv" DemoEmptyCell.empty_id_csv) (Demo.world ∅)
           {| filename := "batch.csv"; stream := DemoEmptyCell.empty_id_csv |}
           [Demo.p1_jan1; DemoEmptyCell.empty_id_row] _ _ _)
           DemoEmptyCell.empty_id_row _ _).
  - reflexivity.
  - vm_compute. reflexivity.
  - repeat constructor; apply (bool_decide_unpack _); vm_compute; exact I.
  - simpl. right. left. reflexivity.
  - right. vm_compute. reflexivity.
Defined.

(** C4 fails as stated: an age of 45.5 is not an integer of [0,120], yet
    the schema accepts the row (as age 45) and the row, with its age of
    45.5, is handed to the sink. *)
Lemma fractional_age_reaches_sink :
  Demo.p4_age45_5 !! "age" = Some (VFloat (91 # 2)) /\
  (exists d, load_row Demo.lib PatientDataSchema Demo.p4_age45_5 = inr d /\
             d !! "age" = Some (LInt 45)) /\
  (Demo.run_upload "batch.csv" Demo.fractional_csv).2 =
    Ok (UploadBody "Data uploaded successfully" 1, 200) /\
  sink_calls (Demo.run_upload "batch.csv" Demo.fractional_csv).1 = [Demo.p4_age45_5] /\
  Demo.field_of (store (Demo.run_upload "batch.csv" Demo.fractional_csv).1 !! "p4") "age"
    = Some (VFloat (91 # 2)).
Proof.
  repeat split; try (vm_compute; reflexivity).
  eexists. split; vm_compute; reflexivity.
Qed.

(** The row with age 200 is refused with OutOfRange, and its batch with it. *)
Lemma age_out_of_range_refused_witness :
  (exists errs e,
     load_row Demo.lib PatientDataSchema Demo.p2_age200 = inl errs /\
     In ("age", [e]) errs /\
     (e = OutOfRange <-> is_Some (int_coercion Demo.lib (VInt 200)))) /\
  (exists w' message,
     Demo.run_upload "batch.csv" Demo.partial_csv = (w', Ok (ErrorBody message, 400)) /\
     sink_calls w' = [] /\ store w' = ∅).
Proof.
  apply (age_out_of_range_refused (Container0 := Demo.container) Demo.lib
           (Demo.upload "batch.csv" Demo.partial_csv) (Demo.world ∅)
           {| filename := "batch.csv"; stream := Demo.partial_csv |}
           [Demo.p1_jan1; Demo.p2_age200; Demo.p3_valid] Demo.p2_age200 (VInt 200)).
  - reflexivity.
  - vm_compute. reflexivity.
  - simpl. right. left. reflexivity.
  - vm_compute. reflexivity.
  - intros z H. vm_compute in H. injection H as <-. lia.
Defined.

(** The scenario file: two records reported, two rows persisted. *)
Lemma records_counts_persisted_rows_witness :
  exists rows,
    UploadBody "Data uploaded successfully" 2
      = UploadBody "Data uploaded successfully" (length rows) /\
    Forall (valid_row Demo.lib) rows /\
    sink_calls (Demo.run_upload "batch.csv" Demo.scenario_csv).1 = [] ++ rows /\
    upsert_all (Container0 := Demo.container) rows ∅
      = (store (Demo.run_upload "batch.csv" Demo.scenario_csv).1, rows, None).
Proof.
  apply (records_counts_persisted_rows (Container0 := Demo.container) Demo.lib
           (Demo.upload "batch.csv" Demo.scenario_csv) (Demo.world ∅)
           (Demo.run_upload "batch.csv" Demo.scenario_csv).1
           (UploadBody "Data uploaded successfully" 2)).
  vm_compute. reflexivity.
Defined.

(** C7 fails as stated: pandas cannot parse the empty file, and the text of
    its exception is the [error] of the HTTP 500 body. *)
Lemma exception_text_in_response :
  read_csv Demo.lib "" = Raise (Exception "No columns to parse from file") /\
  (Demo.run_upload "batch.csv" "").2 =
    Ok (ErrorBody "No columns to parse from file", 500).
Proof. split; vm_compute; reflexivity. Qed.

(** The empty file: the exception of pandas is logged and returned. *)
Lemma internal_error_returns_exception_text_witness :
  exists w'',
    Demo.run_upload "batch.csv" "" =
      (w'', Ok (ErrorBody (str Demo.lib (Exception "No columns to parse from file")), 500)) /\
    logs w'' = [] ++ [("ERROR", "Error uploading data: No columns to parse from file")] /\
    store w'' = ∅ /\ sink_calls w'' = [].
Proof.
  apply (internal_error_returns_exception_text (Container0 := Demo.container) Demo.lib
           (Demo.upload "batch.csv" "") (Demo.world ∅)
           (post_try (Container0 := Demo.container) Demo.lib
              (Demo.upload "batch.csv" "") (Demo.world ∅)).1
           (Exception "No columns to parse from file")).
  vm_compute. reflexivity.
Defined.

(** A request without a file, and one with a file named notes.txt. *)
Lemma request_error_aborts_before_processing_witness :
  (exists message,
     DataUpload_post (Container0 := Demo.container) Demo.lib {| files := [] |} (Demo.world ∅)
       = (Demo.world ∅, Ok (ErrorBody message, 400))) /\
  (exists message,
     DataUpload_post (Container0 := Demo.container) Demo.lib
       (Demo.upload "notes.txt" Demo.scenario_csv) (Demo.world ∅)
       = (Demo.world ∅, Ok (ErrorBody message, 400))).
Proof.
  split.
  - apply (request_error_aborts_before_processing (Container0 := Demo.container)).
    left. reflexivity.
  - apply (request_error_aborts_before_processing (Container0 := Demo.container)).
    right. eexists. split; reflexivity.
Defined.

(** The file with age 45.5: the row handed to the sink is the parsed row,
    with 45.5, not the validated one, with 45. *)
Lemma persisted_rows_are_raw_rows_witness :
  exists w' response calls,
    Demo.run_upload "batch.csv" Demo.fractional_csv = (w', Ok response) /\
    sink_calls w' = [] ++ calls /\
    calls `prefix_of` dropna [Demo.p4_age45_5] /\
    (status response = 200 ->
     calls = dropna [Demo.p4_age45_5] /\
     upsert_all (Container0 := Demo.container) (dropna [Demo.p4_age45_5]) ∅
       = (store w', dropna [Demo.p4_age45_5], None)).
Proof.
  apply (persisted_rows_are_raw_rows (Container0 := Demo.container) Demo.lib
           (Demo.upload "batch.csv" Demo.fractional_csv) (Demo.world ∅)
           {| filename := "batch.csv"; stream := Demo.fractional_csv |}
           [Demo.p4_age45_5]
           (match Schema_load Demo.lib PatientDataSchema [Demo.p4_age45_5] with
            | Ok vd => vd
            | Raise _ => []
            end)).
  - reflexivity.
  - reflexivity.
  - vm_compute. reflexivity.
  - vm_compute. reflexivity.
Defined.

(** Two documents in the store, one of them with a score above 0.5. *)
Lemma anomalies_are_scores_above_half_witness :
  length (records (pd_DataFrame Demo.lib [Demo.p5_age99; Demo.p1_jan1])) = 2%nat /\
  forall r, In r (records (pd_DataFrame Demo.lib [Demo.p5_age99; Demo.p1_jan1])) ->
    (In r [Demo.p5_age99]
     <-> exists q,
           score Demo.lib
             (feature_vector [float64; int64]
                (pd_DataFrame Demo.lib [Demo.p5_age99; Demo.p1_jan1]) r) = Some q /\
           (1 # 2 < q)%Q).
Proof.
  apply (anomalies_are_scores_above_half (Container0 := Demo.container) Demo.lib
           (Demo.world Demo.two_patients)
           (Anomalies_get (Container0 := Demo.container) Demo.lib
              (Demo.world Demo.two_patients)).1
           [Demo.p5_age99; Demo.p1_jan1] [Demo.p5_age99]).
  - vm_compute. reflexivity.
  - repeat constructor; intros H;
      apply (f_equal (fun r : Row => r !! "age")) in H; vm_compute in H; discriminate.
  - vm_compute. reflexivity.
Defined.

(** * Further properties of the code *)

(** ** What the schema accepts and what it returns *)

Section SchemaProperties.
Variable lib : Library.







End SchemaProperties.

(** ** The errors of a load *)

Section SchemaErrors.
Variable lib : Library.









End SchemaErrors.

(** ** The upload endpoint: what a run leaves behind *)

Section UploadProperties.
Context {Store : Type} `{!Container Store}.
Variable lib : Library.





End UploadProperties.

(** ** Uploads into a keyed container: partial failure and frame *)

Section KeyedProperties.
Variable key : Row -> result string.
Variable query : string -> list (string * string) -> gmap string Row -> result (list Row).
Variable lib : Library.







End KeyedProperties.

(** ** Successive uploads into the store keyed by patient_id *)

Section SuccessiveUploads.
Variable query : string -> list (string * string) -> gmap string Row -> result (list Row).
Variable lib : Library.


End SuccessiveUploads.

(** ** The extension check *)






(** ** The read endpoints *)

Section ReadEndpoints.
Context {Store : Type} `{!Container Store}.
Variable lib : Library.






End ReadEndpoints.

(** ** Login *)


(** ** config.py *)





(** ** The further properties on concrete inputs *)












